(** * Appraisal Analysis Tool: presets, header cache and header mapping

    A shallow embedding of the two versions of the tool that the repository
    holds,

    - [Stage2]: appraisal_tool_stage2_presets_help.py (module-level functions
      over the globals [presets] and [current_preset]);
    - [V041]:   appraisal_tool_v0.4.1.py (the methods of class [App]),

    and the properties of their preset manager, persistence store, CSV header
    cache and header-mapping editor.

    Conventions of the embedding.
    - A Python [str] is the [string] of the bytes of its UTF-8 encoding.
      [str.strip] removes the white space of [str.isspace], the characters
      beyond ASCII included; [str.lower] is a parameter of the functions that
      call it, fixed on ASCII text only.
    - A Python [dict] with string keys is a [gmap string _]: equality of maps
      is equality of dicts (key order is not part of it).
    - A Tk [Entry] or [Combobox] is the text it holds.
    - The file system and the message boxes are the explicit [World] that every
      operation threads; an exception is the string [str(e)] it prints as.
    - Widget styling (relief, colours, fonts) and window management are left
      out. *)

From stdpp Require Import gmap strings list fin_maps.
From Stdlib Require Import Ascii.
From Stdlib Require String.

(** ** Python strings *)

(** [str.isspace] on one character of the ASCII range: TAB, LF, VT, FF, CR,
    the four separators FS, GS, RS, US, and the space. *)
Definition isspace (c : ascii) : bool :=
  let n := nat_of_ascii c in
  ((9 <=? n) && (n <=? 13)) || ((28 <=? n) && (n <=? 32)).

(** The number of bytes of the white-space character that the text starts
    with, 0 when it starts with none. White space is what [str.isspace]
    accepts: the ASCII characters above and, in UTF-8, U+0085 (C2 85), U+00A0
    (C2 A0), U+1680 (E1 9A 80), U+2000 to U+200A (E2 80 80 to E2 80 8A),
    U+2028, U+2029, U+202F (E2 80 A8, A9, AF), U+205F (E2 81 9F) and U+3000
    (E3 80 80). *)
Definition space_width (s : string) : nat :=
  match s with
  | EmptyString => 0
  | String a rest =>
      if isspace a then 1
      else
        let a := nat_of_ascii a in
        match rest with
        | String b rest' =>
            let b := nat_of_ascii b in
            if (a =? 194) && ((b =? 133) || (b =? 160)) then 2
            else
              match rest' with
              | String c _ =>
                  let c := nat_of_ascii c in
                  if (a =? 225) && (b =? 154) && (c =? 128) then 3
                  else if (a =? 226) && (b =? 128)
                          && (((128 <=? c) && (c <=? 138))
                              || (c =? 168) || (c =? 169) || (c =? 175)) then 3
                  else if (a =? 226) && (b =? 129) && (c =? 159) then 3
                  else if (a =? 227) && (b =? 128) && (c =? 128) then 3
                  else 0
              | EmptyString => 0
              end
        | EmptyString => 0
        end
  end.

(** [s.lstrip()]; [skip] counts the bytes of a white-space character that are
    still to be passed over. *)
Fixpoint lstrip_go (s : string) (skip : nat) : string :=
  match s with
  | EmptyString => EmptyString
  | String _ rest =>
      match skip with
      | S k => lstrip_go rest k
      | 0 =>
          match space_width s with
          | 0 => s
          | S k => lstrip_go rest k
          end
      end
  end.

Definition lstrip (s : string) : string := lstrip_go s 0.

(** [s.rstrip()]: the text up to where only white space follows. *)
Fixpoint rstrip (s : string) : string :=
  match s with
  | EmptyString => EmptyString
  | String c rest =>
      match lstrip s with
      | EmptyString => EmptyString
      | String _ _ => String c (rstrip rest)
      end
  end.

(** [s.strip()] *)
Definition strip (s : string) : string := rstrip (lstrip s).

Definition lower_ascii (c : ascii) : ascii :=
  let n := nat_of_ascii c in
  if (65 <=? n) && (n <=? 90) then ascii_of_nat (n + 32) else c.

(** [s.lower()] of a text of ASCII characters: the letters A to Z become a
    to z. *)
Fixpoint lower (s : string) : string :=
  match s with
  | EmptyString => EmptyString
  | String c rest => String (lower_ascii c) (lower rest)
  end.

(** [sub in s] *)
Fixpoint str_in (sub s : string) : bool :=
  String.prefix sub s ||
  match s with
  | EmptyString => false
  | String _ rest => str_in sub rest
  end.

(** Truthiness of a string: [if s:] *)
Definition truthy (s : string) : bool :=
  match s with EmptyString => false | String _ _ => true end.

(** [sep.join(parts)] *)
Fixpoint join (sep : string) (parts : list string) : string :=
  match parts with
  | [] => ""
  | [p] => p
  | p :: rest => p +:+ sep +:+ join sep rest
  end.

Definition newline : string := String (ascii_of_nat 10) "".

(** ** JSON documents *)

(** What [json.load] returns and [json.dump] accepts. *)
#[local] Set Warnings "-register-all".
Inductive json :=
| JNull
| JBool (b : bool)
| JNumber (n : Z)
| JString (s : string)
| JArray (items : list json)
| JObject (members : gmap string json).

(** ** The world outside the process *)

(** What opening and parsing an existing JSON file comes to. *)
Inductive stored :=
| Unreadable            (* the file exists but open or read raises *)
| Malformed             (* the text is not JSON: json.load raises *)
| Parsed (doc : json).  (* the text is the JSON text of doc *)

Inductive messagebox :=
| showinfo (title message : string)
| showwarning (title message : string)
| showerror (title message : string).

Record World := {
  documents : gmap string stored;     (* JSON files by path *)
  write_errors : gmap string string;  (* paths on which a write raises, with str(e) *)
  torn_writes : gmap string stored;   (* of these, the paths where the write raises
                                         after open(path, "w") has truncated the
                                         file, with what is left of the file *)
  csv_files : gmap string string;     (* CSV files by path: their bytes *)
  dialogs : list messagebox           (* message boxes shown so far, oldest first *)
}.

Definition set_documents (d : gmap string stored) (w : World) : World :=
  {| documents := d; write_errors := write_errors w; torn_writes := torn_writes w;
     csv_files := csv_files w; dialogs := dialogs w |}.

Definition show (m : messagebox) (w : World) : World :=
  {| documents := documents w; write_errors := write_errors w;
     torn_writes := torn_writes w;
     csv_files := csv_files w; dialogs := dialogs w ++ [m] |}.

(** [with open(path, "w") as f: json.dump(data, f, indent=2)]: the file now
    holds [data], or the write raises. It raises either at the open, which
    leaves the file as it was, or in [json.dump] or the close, after the open
    has truncated the file, which leaves what was written until then. The
    exception comes with the world it leaves. *)
Definition write_json (path : string) (data : json) (w : World)
    : string * World + World :=
  match write_errors w !! path with
  | Some e =>
      match torn_writes w !! path with
      | Some rest => inl (e, set_documents (<[path := rest]> (documents w)) w)
      | None => inl (e, w)
      end
  | None => inr (set_documents (<[path := Parsed data]> (documents w)) w)
  end.

(** [open(path, "r")] followed by [json.load(f)]: [None] when either raises. *)
Definition read_json (path : string) (w : World) : option json :=
  match documents w !! path with
  | Some (Parsed doc) => Some doc
  | Some Unreadable | Some Malformed | None => None
  end.

(** ** Tk text widgets *)

(** [entry.delete(0, tk.END)] *)
Definition Entry_delete (text : string) : string := "".

(** [entry.insert(0, s)] *)
Definition Entry_insert (s text : string) : string := s +:+ text.

(** The loop both versions run over the adjustment entries when a preset is
    applied:
    [for field, entry in entries.items():
         entry.delete(0, tk.END)
         if field in data: entry.insert(0, data[field])]
    (Stage 2 inserts [str(data[field])], the same text for a string). *)
Definition fill_entries (data entries : gmap string string) : gmap string string :=
  map_imap (λ field entry,
     let entry := Entry_delete entry in
     Some (match data !! field with
           | Some v => Entry_insert v entry
           | None => entry
           end)) entries.

(** ** Presets *)

(** The names on the five preset buttons. *)
Inductive PresetName := Q1 | Q2 | Q3 | Q4 | Q5.

Definition preset_key (n : PresetName) : string :=
  match n with
  | Q1 => "Q1" | Q2 => "Q2" | Q3 => "Q3" | Q4 => "Q4" | Q5 => "Q5"
  end.

(** The presets document: an object of objects of strings. *)
Definition preset_json (data : gmap string string) : json :=
  JObject (JString <$> data).

Definition presets_json (presets : gmap string (gmap string string)) : json :=
  JObject (preset_json <$> presets).

(** [{"Q1": {}, "Q2": {}, "Q3": {}, "Q4": {}, "Q5": {}}] *)
Definition default_presets : gmap string (gmap string string) :=
  <["Q1" := ∅]> (<["Q2" := ∅]> (<["Q3" := ∅]> (<["Q4" := ∅]> (<["Q5" := ∅]> ∅)))).

(** ** Stage 2.4: appraisal_tool_stage2_presets_help.py *)

Module Stage2.

Definition CONFIG_FILE : string := "presets.json".

Definition load_presets (w : World) : json :=
  match read_json CONFIG_FILE w with
  | Some doc => doc
  | None => presets_json default_presets
  end.

(** A failed write is passed over in silence. *)
Definition save_presets (presets : gmap string (gmap string string)) (w : World) : World :=
  match write_json CONFIG_FILE (presets_json presets) w with
  | inr w' => w'
  | inl (_, w') => w'
  end.

(** The module's globals. *)
Record Globals := {
  presets : gmap string (gmap string string);
  current_preset : option PresetName
}.

Definition apply_preset (preset_name : PresetName) (entries : gmap string string)
    (g : Globals) : Globals * gmap string string :=
  let g := {| presets := presets g; current_preset := Some preset_name |} in
  let data := default ∅ (presets g !! preset_key preset_name) in
  (g, fill_entries data entries).

Definition save_preset (preset_name : option PresetName) (entries : gmap string string)
    (g : Globals) (w : World) : Globals * World :=
  match preset_name with
  | None =>
      (g, show (showwarning "No preset selected" "Select Q1–Q5 first before saving.") w)
  | Some n =>
      let data :=
        map_fold (λ field entry (data : gmap string string),
                    let val := strip entry in
                    if truthy val then <[field := val]> data else data)
                 ∅ entries in
      let g := {| presets := <[preset_key n := data]> (presets g);
                  current_preset := current_preset g |} in
      let w := save_presets (presets g) w in
      (g, show (showinfo "Preset Saved"
                  ("Preset " +:+ preset_key n +:+ " updated and saved.")) w)
  end.

Definition clear_adjustments (entries : gmap string string) : gmap string string :=
  Entry_delete <$> entries.

(** The window of [main]: the globals, the adjustment entries [adj_entries]
    and the world. *)
Record Window := {
  globals : Globals;
  adj_entries : gmap string string;
  world : World
}.

(** The buttons of the preset row and the commands [main] binds to them. *)
Inductive Button :=
| Preset (p : PresetName)
| SavePreset
| ClearAdjustments.

Definition press (b : Button) (s : Window) : Window :=
  match b with
  | Preset pn =>
      let r := apply_preset pn (adj_entries s) (globals s) in
      {| globals := r.1; adj_entries := r.2; world := world s |}
  | SavePreset =>
      let r := save_preset (current_preset (globals s)) (adj_entries s)
                 (globals s) (world s) in
      {| globals := r.1; adj_entries := adj_entries s; world := r.2 |}
  | ClearAdjustments =>
      {| globals := globals s; adj_entries := clear_adjustments (adj_entries s);
         world := world s |}
  end.

End Stage2.

(** ** CSV reading: csv.DictReader over a text stream *)

(** What one [next(reader)] on a [csv.reader] comes to: a row of cells, or an
    exception ([UnicodeDecodeError], [csv.Error]); the end of the list is
    [StopIteration]. *)
Inductive read_item :=
| Row (cells : list string)
| Raises (e : string).

(** The three bytes EF BB BF. *)
Definition BOM : string :=
  String (ascii_of_nat 239) (String (ascii_of_nat 187) (String (ascii_of_nat 191) "")).

(** The codec utf-8-sig on decoding: a byte-order-mark at the very start of
    the file is skipped, the rest is read as utf-8. *)
Definition utf_8_sig (bytes : string) : string :=
  match bytes with
  | String a (String b (String c rest)) =>
      if Ascii.eqb a (ascii_of_nat 239) && Ascii.eqb b (ascii_of_nat 187)
         && Ascii.eqb c (ascii_of_nat 191)
      then rest else bytes
  | _ => bytes
  end.

(** [DictReader.fieldnames] on a fresh reader: the first row of the stream,
    [None] at once on an empty stream. *)
Definition fieldnames (items : list read_item)
    : string + (option (list string) * list read_item) :=
  match items with
  | [] => inr (None, [])
  | Raises e :: _ => inl e
  | Row cells :: rest => inr (Some cells, rest)
  end.

(** The dict [DictReader.__next__] builds of one row: [dict(zip(fieldnames,
    row))], then either the surplus cells under the key [None] (restkey) or
    [None] (restval) for every field the row is too short for. *)
Record row_dict := {
  by_field : gmap string (option string);
  restkey : option (list string)
}.

Definition DictReader_row (fields row : list string) : row_dict :=
  let d := foldl (λ (d : gmap string (option string)) kv, <[kv.1 := Some kv.2]> d)
                 ∅ (zip fields row) in
  let lf := length fields in
  let lr := length row in
  if lf <? lr then {| by_field := d; restkey := Some (drop lf row) |}
  else {| by_field := foldl (λ d key, <[key := None]> d) d (drop lr fields);
          restkey := None |}.

(** [{h: [] for h in cached_headers}] *)
Definition empty_samples (headers : list string) : gmap string (list string) :=
  foldl (λ samples h, <[h := []]> samples) ∅ headers.

(** ["" if val is None else str(val)] *)
Definition cell_text (val : option string) : string := default "" val.

(** [for h, val in row.items(): samples[h].append(...)]: the key [None] is no
    key of [samples], so a row with surplus cells raises [KeyError(None)]. *)
Definition append_samples (d : row_dict) (samples : gmap string (list string))
    : string + gmap string (list string) :=
  let samples :=
    map_fold (λ h val samples, alter (λ l, l ++ [cell_text val]) h samples)
             samples (by_field d) in
  match restkey d with
  | Some _ => inl "None"
  | None => inr samples
  end.

(** [for i, row in enumerate(reader): if i >= 3: break; ...]. The reader
    passes over blank rows, and the fourth row is fetched before the loop
    breaks. *)
Fixpoint sample_rows (fields : list string) (i : nat) (items : list read_item)
    (samples : gmap string (list string)) : string + gmap string (list string) :=
  match items with
  | [] => inr samples
  | Raises e :: _ => inl e
  | Row [] :: rest => sample_rows fields i rest samples
  | Row cells :: rest =>
      if 3 <=? i then inr samples
      else match append_samples (DictReader_row fields cells) samples with
           | inl e => inl e
           | inr samples => sample_rows fields (S i) rest samples
           end
  end.




(** A reader for CSV text without quote characters: cells end at a comma,
    rows at LF, CR or CR LF; a line with nothing on it is the empty row, as
    [csv.reader] gives it. Used for the worked examples. *)
Fixpoint plain_reader_go (text cell : string) (cells : list string) (started : bool)
    : list read_item :=
  let flush := if started then cells ++ [cell] else [] in
  match text with
  | EmptyString => if started then [Row flush] else []
  | String c rest =>
      if Ascii.eqb c "," then plain_reader_go rest "" (cells ++ [cell]) true
      else if Ascii.eqb c (ascii_of_nat 10) then Row flush :: plain_reader_go rest "" [] false
      else if Ascii.eqb c (ascii_of_nat 13) then
        match rest with
        | String d rest' =>
            if Ascii.eqb d (ascii_of_nat 10)
            then Row flush :: plain_reader_go rest' "" [] false
            else Row flush :: plain_reader_go rest "" [] false
        | EmptyString => [Row flush]
        end
      else plain_reader_go rest (cell +:+ String c "") cells true
  end.

Definition plain_reader (text : string) : list read_item :=
  plain_reader_go text "" [] false.

(** ** v0.4.1: appraisal_tool_v0.4.1.py *)

Module V041.

Definition PRESETS_FILE : string := "presets.json".
Definition HEADERS_MAP_FILE : string := "headers_map.json".
Definition CUSTOM_FIELDS_FILE : string := "custom_fields.json".
Definition HELP_CONTENT_FILE : string := "help_content.json".

Definition load_json (path : string) (default : json) (w : World) : json :=
  match read_json path w with
  | Some doc => doc
  | None => default
  end.

Definition save_json (path : string) (data : json) (w : World) : World :=
  match write_json path data w with
  | inr w' => w'
  | inl (e, w') =>
      show (showwarning "Save Error" ("Could not save to " +:+ path +:+ newline +:+ e)) w'
  end.

(** One entry of [custom_fields]: [{"name": ..., "header": ...}]. *)
Record custom_field := { name : string; header : string }.

Definition custom_field_json (c : custom_field) : json :=
  JObject (<["name" := JString (name c)]> (<["header" := JString (header c)]> ∅)).

Definition custom_fields_json (l : list custom_field) : json :=
  JArray (custom_field_json <$> l).

Definition headers_map_json (m : gmap string string) : json :=
  JObject (JString <$> m).

(** A [ttk.Combobox]: the text typed or chosen, and the drop-down list. *)
Record Combobox := { text : string; values : list string }.

(** The state of [App]. *)
Record App := {
  presets : gmap string (gmap string string);
  headers_map : gmap string string;
  custom_fields : list custom_field;
  active_preset : option PresetName;
  adjustment_entries : gmap string string;       (* field -> text of its Entry *)
  cached_headers : list string;
  headers_samples : gmap string (list string);
  _mapper_widgets : gmap string string;          (* field -> text of its Combobox *)
  _custom_widgets : list (string * string)       (* (name Entry, header Combobox) *)
}.

Definition set_presets (v : gmap string (gmap string string)) (a : App) : App :=
  {| presets := v; headers_map := headers_map a; custom_fields := custom_fields a;
     active_preset := active_preset a; adjustment_entries := adjustment_entries a;
     cached_headers := cached_headers a; headers_samples := headers_samples a;
     _mapper_widgets := _mapper_widgets a; _custom_widgets := _custom_widgets a |}.

Definition set_headers_map (v : gmap string string) (a : App) : App :=
  {| presets := presets a; headers_map := v; custom_fields := custom_fields a;
     active_preset := active_preset a; adjustment_entries := adjustment_entries a;
     cached_headers := cached_headers a; headers_samples := headers_samples a;
     _mapper_widgets := _mapper_widgets a; _custom_widgets := _custom_widgets a |}.

Definition set_custom_fields (v : list custom_field) (a : App) : App :=
  {| presets := presets a; headers_map := headers_map a; custom_fields := v;
     active_preset := active_preset a; adjustment_entries := adjustment_entries a;
     cached_headers := cached_headers a; headers_samples := headers_samples a;
     _mapper_widgets := _mapper_widgets a; _custom_widgets := _custom_widgets a |}.

Definition set_active_preset (v : option PresetName) (a : App) : App :=
  {| presets := presets a; headers_map := headers_map a; custom_fields := custom_fields a;
     active_preset := v; adjustment_entries := adjustment_entries a;
     cached_headers := cached_headers a; headers_samples := headers_samples a;
     _mapper_widgets := _mapper_widgets a; _custom_widgets := _custom_widgets a |}.

Definition set_adjustment_entries (v : gmap string string) (a : App) : App :=
  {| presets := presets a; headers_map := headers_map a; custom_fields := custom_fields a;
     active_preset := active_preset a; adjustment_entries := v;
     cached_headers := cached_headers a; headers_samples := headers_samples a;
     _mapper_widgets := _mapper_widgets a; _custom_widgets := _custom_widgets a |}.

Definition set_cached_headers (v : list string) (a : App) : App :=
  {| presets := presets a; headers_map := headers_map a; custom_fields := custom_fields a;
     active_preset := active_preset a; adjustment_entries := adjustment_entries a;
     cached_headers := v; headers_samples := headers_samples a;
     _mapper_widgets := _mapper_widgets a; _custom_widgets := _custom_widgets a |}.

Definition set_headers_samples (v : gmap string (list string)) (a : App) : App :=
  {| presets := presets a; headers_map := headers_map a; custom_fields := custom_fields a;
     active_preset := active_preset a; adjustment_entries := adjustment_entries a;
     cached_headers := cached_headers a; headers_samples := v;
     _mapper_widgets := _mapper_widgets a; _custom_widgets := _custom_widgets a |}.

(** *** Preset buttons *)

Definition _apply_preset (q : PresetName) (a : App) : App :=
  let data := default ∅ (presets a !! preset_key q) in
  let a := set_adjustment_entries (fill_entries data (adjustment_entries a)) a in
  set_active_preset (Some q) a.

Definition _save_preset (a : App) (w : World) : App * World :=
  match active_preset a with
  | None => (a, show (showinfo "Save Preset" "Select a Q button first.") w)
  | Some q =>
      let data :=
        map_fold (λ field entry (data : gmap string string), <[field := entry]> data)
                 ∅ (adjustment_entries a) in
      let a := set_presets (<[preset_key q := data]> (presets a)) a in
      let w := save_json PRESETS_FILE (presets_json (presets a)) w in
      (a, show (showinfo "Preset Saved" (preset_key q +:+ " saved.")) w)
  end.

Definition _clear_adjustments (a : App) : App :=
  let a := set_adjustment_entries (Entry_delete <$> adjustment_entries a) a in
  match active_preset a with
  | Some _ => set_active_preset None a
  | None => a
  end.

(** The buttons of the preset row and the commands [_build_presets_row] binds
    to them. *)
Inductive Button :=
| Preset (q : PresetName)
| SavePreset
| ClearAdjustments.

Definition press (b : Button) (s : App * World) : App * World :=
  match b with
  | Preset q => (_apply_preset q s.1, s.2)
  | SavePreset => _save_preset s.1 s.2
  | ClearAdjustments => (_clear_adjustments s.1, s.2)
  end.

(** *** Header cache *)

Section HeaderCache.

(** [csv.reader] over the decoded text of a file opened with [newline='']:
    the results of its successive [next] calls. *)
Variable csv_reader : string → list read_item.

Definition _cache_headers (path : string) (a : App) (w : World) : App * World :=
  let failed e := show (showerror "Header Cache Error" e) w in
  match csv_files w !! path with
  | None => (a, failed ("[Errno 2] No such file or directory: '" +:+ path +:+ "'"))
  | Some bytes =>
      match fieldnames (csv_reader (utf_8_sig bytes)) with
      | inl e => (a, failed e)
      | inr (names, rest) =>
          let a := set_cached_headers (default [] names) a in
          let samples := empty_samples (cached_headers a) in
          match sample_rows (default [] names) 0 rest samples with
          | inl e => (a, failed e)
          | inr samples => (set_headers_samples samples a, w)
          end
      end
  end.

End HeaderCache.

(** *** Header mapper *)

(** The body of [save_all], the command of the Save All button. Every value
    of [_mapper_widgets] is a [ttk.Combobox], so the [isinstance] test holds
    for each. *)
Definition save_all (a : App) (w : World) : App * World :=
  let final_map :=
    map_fold (λ field combo (final_map : gmap string string),
                <[field := strip combo]> final_map)
             ∅ (_mapper_widgets a) in
  let w := save_json HEADERS_MAP_FILE (headers_map_json final_map) w in
  let a := set_headers_map final_map a in
  let new_custom_fields :=
    foldl (λ new_custom_fields widgets,
             let name := strip widgets.1 in
             let header := strip widgets.2 in
             if truthy name
             then new_custom_fields ++ [{| name := name; header := header |}]
             else new_custom_fields)
          [] (_custom_widgets a) in
  let w := save_json CUSTOM_FIELDS_FILE (custom_fields_json new_custom_fields) w in
  let a := set_custom_fields new_custom_fields a in
  (a, show (showinfo "Saved" "Headers and custom fields saved.") w).

(** The rows of the custom-field table that [save_all] keeps, and what it
    keeps of each. *)
Definition named (widgets : string * string) : bool := truthy (strip widgets.1).

Definition committed (widgets : string * string) : custom_field :=
  {| name := strip widgets.1; header := strip widgets.2 |}.

Section TypeAhead.

(** [str.lower], which folds every cased character of Unicode; on a text of
    ASCII characters it is [lower]. *)
Variable str_lower : string → string.

(** The drop-down list [_typeahead_and_preview] computes for the stripped
    text [typed] of the combobox. *)
Definition filter_headers (cached_headers : list string) (typed : string) : list string :=
  if truthy typed then
    let filtered :=
      List.filter (λ h, str_in (str_lower typed) (str_lower h)) cached_headers in
    match filtered with
    | [] => cached_headers
    | _ :: _ => filtered
    end
  else cached_headers.

(** The text [_update_preview_from_combo] puts on the preview label. *)
Definition _update_preview_from_combo (a : App) (combo : Combobox) : string :=
  let h := strip (text combo) in
  let vals := take 3 (default [] (headers_samples a !! h)) in
  match vals with
  | [] => ""
  | _ :: _ => join " | " vals
  end.

(** The combobox and the text of the preview label after a key release. *)
Definition _typeahead_and_preview (a : App) (combo : Combobox) (preview_label : string)
    : Combobox * string :=
  let typed := strip (text combo) in
  match cached_headers a with
  | [] => (combo, "")
  | _ :: _ =>
      let combo := {| text := text combo;
                      values := filter_headers (cached_headers a) typed |} in
      (combo, _update_preview_from_combo a combo)
  end.

End TypeAhead.

End V041.

(** ** Three statements as the specification words them *)

Module Spec.

(** The expected structure of the presets document: an object whose values
    are objects of strings. *)
Definition is_string (j : json) : bool :=
  match j with JString _ => true | _ => false end.

Definition object_of (p : json → bool) (j : json) : bool :=
  match j with
  | JObject members => forallb (λ kv, p kv.2) (map_to_list members)
  | _ => false
  end.

Definition is_presets_document : json → bool := object_of (object_of is_string).

(** "load returns ... a caller-supplied default if the backing file is absent,
    unreadable, or fails to parse as the expected structure". *)
Definition load_falls_back (expected : json → bool) (path : string) (default : json)
    (w : World) : Prop :=
  match documents w !! path with
  | None | Some Unreadable | Some Malformed => True
  | Some (Parsed doc) => expected doc = false
  end →
  V041.load_json path default w = default.

(** "either both documents are updated together or neither is": when a save
    of the commit fails, the files and the live header mapping and custom
    fields are the ones from before. *)
Definition commit_is_atomic (a : V041.App) (w : World) : Prop :=
  is_Some (write_errors w !! V041.HEADERS_MAP_FILE) ∨
  is_Some (write_errors w !! V041.CUSTOM_FIELDS_FILE) →
  documents (V041.save_all a w).2 = documents w ∧
  V041.headers_map (V041.save_all a w).1 = V041.headers_map a ∧
  V041.custom_fields (V041.save_all a w).1 = V041.custom_fields a.


End Spec.

(** ** Notions used in the statements *)

(** The white-space characters of [str.isspace], each as its UTF-8 bytes. *)
Definition bytes (l : list nat) : string :=
  foldr (λ n s, String (ascii_of_nat n) s) EmptyString l.

Definition white_space : list string :=
  bytes <$> [[9]; [10]; [11]; [12]; [13]; [28]; [29]; [30]; [31]; [32];
             [194; 133]; [194; 160]; [225; 154; 128];
             [226; 128; 128]; [226; 128; 129]; [226; 128; 130]; [226; 128; 131];
             [226; 128; 132]; [226; 128; 133]; [226; 128; 134]; [226; 128; 135];
             [226; 128; 136]; [226; 128; 137]; [226; 128; 138];
             [226; 128; 168]; [226; 128; 169]; [226; 128; 175];
             [226; 129; 159]; [227; 128; 128]].

(** A text of white space only. *)
Inductive Blank : string → Prop :=
| Blank_nil : Blank ""
| Blank_cons (ws s : string) : ws ∈ white_space → Blank s → Blank (ws +:+ s).

(** A text of ASCII characters only. *)
Definition ascii_text (s : string) : bool :=
  forallb (λ c, nat_of_ascii c <? 128) (String.list_ascii_of_string s).






(** A text that neither starts nor ends with a white-space character, and
    the trimming of a text: what is left of it between the white space it
    starts with and the white space it ends with. *)
Definition trimmed (t : string) : Prop :=
  ∀ ws u, ws ∈ white_space → t ≠ ws +:+ u ∧ t ≠ u +:+ ws.

Definition trimming_of (s t : string) : Prop :=
  trimmed t ∧ ∃ a b, Blank a ∧ Blank b ∧ s = a +:+ t +:+ b.

(** ** Worked inputs *)

Module Examples.

Definition lf : string := newline.

(** An [App] just started on default documents, with three adjustment
    entries on screen. *)
Definition fresh_app : V041.App :=
  {| V041.presets := default_presets;
     V041.headers_map := ∅;
     V041.custom_fields := [];
     V041.active_preset := None;
     V041.adjustment_entries :=
       <["GLA $/sf" := ""]> (<["Basement $/sf" := ""]> (<["Garage $/bay" := ""]> ∅));
     V041.cached_headers := [];
     V041.headers_samples := ∅;
     V041._mapper_widgets := ∅;
     V041._custom_widgets := [] |}.

Definition empty_world : World :=
  {| documents := ∅; write_errors := ∅; torn_writes := ∅; csv_files := ∅; dialogs := [] |}.

(** A market export with a byte-order-mark, a header row and five data rows;
    the second data row has no price. *)
Definition market_text : string :=
  "Address,Sale Price" +:+ lf +:+
  "1 Elm St,100" +:+ lf +:+
  "2 Oak St" +:+ lf +:+
  "3 Ash St,300" +:+ lf +:+
  "4 Fir St,400" +:+ lf +:+
  "5 Yew St,500" +:+ lf.

Definition market_rows : list read_item :=
  [Row ["1 Elm St"; "100"]; Row ["2 Oak St"]; Row ["3 Ash St"; "300"];
   Row ["4 Fir St"; "400"]; Row ["5 Yew St"; "500"]].

(** A lot export whose only data row has one cell more than the header row. *)
Definition lot_text : string :=
  "a,b" +:+ lf +:+ "1,2,3" +:+ lf.

Definition disk : World :=
  {| documents := ∅; write_errors := ∅; torn_writes := ∅;
     csv_files := <["market.csv" := BOM +:+ market_text]> (<["lot.csv" := lot_text]> ∅);
     dialogs := [] |}.

(** The app after the market export was picked. *)
Definition app_with_market : V041.App :=
  (V041._cache_headers plain_reader "market.csv" fresh_app disk).1.

(** Preset Q3 is active and the user has typed a price per square foot, left
    one entry empty and put two blanks in another. *)
Definition typed_entries : gmap string string :=
  <["GLA $/sf" := "50000"]> (<["Basement $/sf" := ""]> (<["Garage $/bay" := "  "]> ∅)).

Definition app_on_Q3 : V041.App :=
  V041.set_adjustment_entries typed_entries (V041._apply_preset Q3 fresh_app).

(** The Stage 2 window with Q3 saved and applied. *)
Definition saved_Q3 : gmap string (gmap string string) :=
  <["Q3" := <["GLA $/sf" := "50000"]> ∅]> default_presets.

Definition window_on_Q3 : Stage2.Window :=
  Stage2.press (Stage2.Preset Q3)
    {| Stage2.globals := {| Stage2.presets := saved_Q3; Stage2.current_preset := None |};
       Stage2.adj_entries := <["GLA $/sf" := ""]> (<["Basement $/sf" := ""]> ∅);
       Stage2.world :=
         {| documents := <[Stage2.CONFIG_FILE := Parsed (presets_json saved_Q3)]> ∅;
            write_errors := ∅; torn_writes := ∅; csv_files := ∅; dialogs := [] |} |}.

(** The header mapper open on one field and one custom row, over files of an
    earlier commit; the header-mapping file cannot be opened for writing. *)
Definition mapper_app : V041.App :=
  {| V041.presets := default_presets;
     V041.headers_map := <["GLA (sf)" := "Sq Ft"]> ∅;
     V041.custom_fields := [];
     V041.active_preset := None;
     V041.adjustment_entries := ∅;
     V041.cached_headers := ["Living Area"; "Pool Y/N"];
     V041.headers_samples := ∅;
     V041._mapper_widgets := <["GLA (sf)" := " Living Area "]> ∅;
     V041._custom_widgets := [("Pool", "Pool Y/N")] |}.

Definition locked_disk : World :=
  {| documents :=
       <[V041.HEADERS_MAP_FILE :=
           Parsed (V041.headers_map_json (<["GLA (sf)" := "Sq Ft"]> ∅))]>
         (<[V041.CUSTOM_FIELDS_FILE := Parsed (JArray [])]> ∅);
     write_errors :=
       <[V041.HEADERS_MAP_FILE := "[Errno 13] Permission denied: 'headers_map.json'"]> ∅;
     torn_writes := ∅;
     csv_files := ∅;
     dialogs := [] |}.

(** A presets file that holds the JSON text [[]]. *)
Definition list_disk : World :=
  {| documents := <[V041.PRESETS_FILE := Parsed (JArray [])]> ∅;
     write_errors := ∅; torn_writes := ∅; csv_files := ∅; dialogs := [] |}.

(** A disk on which the presets file cannot be opened for writing. *)
Definition locked_presets_disk : World :=
  {| documents := ∅;
     write_errors := <[V041.PRESETS_FILE := "[Errno 13] Permission denied"]> ∅;
     torn_writes := ∅;
     csv_files := ∅; dialogs := [] |}.

(** A disk on which the custom-fields file cannot be written and a failed
    write leaves it empty. *)
Definition torn_disk : World :=
  {| documents :=
       <[V041.HEADERS_MAP_FILE :=
           Parsed (V041.headers_map_json (<["GLA (sf)" := "Sq Ft"]> ∅))]>
         (<[V041.CUSTOM_FIELDS_FILE := Parsed (JArray [])]> ∅);
     write_errors :=
       <[V041.CUSTOM_FIELDS_FILE := "[Errno 28] No space left on device"]> ∅;
     torn_writes := <[V041.CUSTOM_FIELDS_FILE := Malformed]> ∅;
     csv_files := ∅;
     dialogs := [] |}.

(** The no-break space U+00A0. *)
Definition nbsp : string := bytes [194; 160].

(** The header mapper with four custom rows: no name, a name and no header, a
    name of blanks, and a name and header with white space around them. *)
Definition editor_app : V041.App :=
  {| V041.presets := default_presets;
     V041.headers_map := ∅;
     V041.custom_fields := [];
     V041.active_preset := None;
     V041.adjustment_entries := ∅;
     V041.cached_headers := ["Sale Price"; "Garage"; "Deck Y/N"];
     V041.headers_samples := ∅;
     V041._mapper_widgets := ∅;
     V041._custom_widgets :=
       [("", "Sale Price"); ("Pool", ""); ("  " +:+ nbsp, "Garage");
        (" Deck" +:+ nbsp, " Deck Y/N ")] |}.




(** An export in Latin-1 that starts with the byte FC, which no UTF-8 text
    starts with, and a reader whose first [next] raises the decoding error on
    such a file; the rows after it are never asked for. *)
Definition latin_text : string :=
  bytes [252] +:+ "Ort,Preis" +:+ lf +:+ "K,1" +:+ lf.

Definition decode_error : string :=
  "'utf-8' codec can't decode byte 0xfc in position 0: invalid start byte".

Definition decoding_reader (text : string) : list read_item :=
  if ascii_text text then plain_reader text
  else [Raises decode_error; Row ["Ort"; "Preis"]; Row ["K"; "1"]].

Definition latin_disk : World :=
  {| documents := ∅; write_errors := ∅; torn_writes := ∅;
     csv_files := <["latin.csv" := latin_text]> ∅;
     dialogs := [] |}.

End Examples.

(** * Properties *)

(** ** Strings *)

Lemma append_nil_l (s : string) : "" +:+ s = s.
Proof. reflexivity. Qed.

Lemma append_cons (c : ascii) (s t : string) : String c s +:+ t = String c (s +:+ t).
Proof. reflexivity. Qed.

Lemma append_nil_r (s : string) : s +:+ "" = s.
Proof. induction s as [|c s IH]; [done|]. by rewrite append_cons, IH. Qed.

Lemma strip_empty : strip "" = "".
Proof. reflexivity. Qed.

Lemma truthy_true (s : string) : truthy s = true ↔ s ≠ "".
Proof. destruct s; simpl; split; (done || congruence). Qed.

Lemma truthy_false (s : string) : truthy s = false ↔ s = "".
Proof. destruct s; simpl; split; (done || congruence). Qed.





(** Closed statements about worked inputs: each conjunct by evaluation. *)
Ltac by_evaluation :=
  cbv zeta; repeat match goal with |- _ ∧ _ => split end; vm_compute; reflexivity.
(** ** Loops over dicts *)


(** Copying a dict item by item gives the dict. *)
Lemma copy_items {A} (f : A → A) (m : gmap string A) :
  map_fold (λ k v (acc : gmap string A), <[k := f v]> acc) ∅ m = f <$> m.
Proof.
  apply (map_fold_weak_ind (λ (acc m : gmap string A), acc = f <$> m)).
  - by rewrite fmap_empty.
  - intros k v m' acc Hk ->. by rewrite fmap_insert.
Qed.


(** ** Applying a preset *)

Lemma fill_entries_lookup (data entries : gmap string string) (field : string) :
  fill_entries data entries !! field = (λ _, default "" (data !! field)) <$> entries !! field.
Proof.
  unfold fill_entries. rewrite map_lookup_imap.
  destruct (entries !! field) as [entry|]; simpl; [|done].
  destruct (data !! field) as [v|]; simpl; [|done].
  unfold Entry_insert, Entry_delete. by rewrite append_nil_r.
Qed.

Lemma fill_entries_populated (data entries : gmap string string) (field v : string) :
  fill_entries data entries !! field = Some v → v ≠ "" → data !! field = Some v.
Proof.
  rewrite fill_entries_lookup. destruct (entries !! field); simpl; [|done].
  destruct (data !! field); simpl; congruence.
Qed.

Lemma fill_entries_fill_entries (data data' entries : gmap string string) :
  fill_entries data' (fill_entries data entries) = fill_entries data' entries.
Proof.
  apply map_eq. intros field. rewrite !fill_entries_lookup.
  by destruct (entries !! field).
Qed.

Lemma fill_entries_dom (data entries : gmap string string) (field : string) :
  is_Some (fill_entries data entries !! field) ↔ is_Some (entries !! field).
Proof. rewrite fill_entries_lookup, fmap_is_Some. done. Qed.

(** ** The header cache *)


Lemma empty_samples_not_elem (headers : list string) (h : string) :
  h ∉ headers → empty_samples headers !! h = None.
Proof.
  unfold empty_samples.
  induction headers as [|x headers IH] using rev_ind; intros Hout.
  - apply lookup_empty.
  - rewrite foldl_app. cbn [foldl]. rewrite lookup_insert_ne.
    + apply IH. intros Hin. apply Hout, elem_of_app. by left.
    + intros ->. apply Hout, elem_of_app. right. by apply list_elem_of_singleton.
Qed.












(** ** White space and [strip] *)

Lemma nat_ascii_eq (a : ascii) (n : nat) :
  (nat_of_ascii a =? n) = true → a = ascii_of_nat n.
Proof. intros H%Nat.eqb_eq. by rewrite <- H, ascii_nat_embedding. Qed.

Ltac in_list :=
  repeat first [apply list_elem_of_here | apply list_elem_of_further].

Lemma white_space_ascii (a : ascii) (s : string) :
  isspace a = true → String a "" ∈ white_space.
Proof.
  unfold isspace. intros H.
  rewrite <- (ascii_nat_embedding a). set (n := nat_of_ascii a) in *.
  apply orb_true_iff in H as [[H1 H2]%andb_true_iff | [H1 H2]%andb_true_iff];
    apply Nat.leb_le in H1, H2.
  - assert (n = 9 ∨ n = 10 ∨ n = 11 ∨ n = 12 ∨ n = 13) as Hn by lia.
    destruct Hn as [-> | [-> | [-> | [-> | ->]]]]; unfold white_space; simpl; in_list.
  - assert (n = 28 ∨ n = 29 ∨ n = 30 ∨ n = 31 ∨ n = 32) as Hn by lia.
    destruct Hn as [-> | [-> | [-> | [-> | ->]]]]; unfold white_space; simpl; in_list.
Qed.

(** A text that starts with a white-space character is that character and
    the rest, and [lstrip] goes on with the rest. *)
Lemma space_width_token (s : string) (k : nat) :
  space_width s = S k →
  ∃ ws s', ws ∈ white_space ∧ s = ws +:+ s' ∧ lstrip s = lstrip s'.
Proof.
  destruct s as [|a rest]; [discriminate|]. unfold lstrip. cbn [lstrip_go].
  intros Hw. rewrite Hw. revert Hw. unfold space_width.
  destruct (isspace a) eqn:Ha.
  { intros [= <-]. exists (String a ""), rest. split; [by apply white_space_ascii|]. done. }
  destruct rest as [|b rest]; [discriminate|]. cbn zeta.
  destruct ((nat_of_ascii a =? 194)
            && ((nat_of_ascii b =? 133) || (nat_of_ascii b =? 160))) eqn:H2.
  { intros [= <-].
    apply andb_true_iff in H2 as [->%nat_ascii_eq Hb].
    exists (String (ascii_of_nat 194) (String b "")), rest. split; [|done].
    apply orb_true_iff in Hb as [->%nat_ascii_eq | ->%nat_ascii_eq];
      unfold white_space; simpl; in_list. }
  destruct rest as [|c rest]; [discriminate|].
  destruct ((nat_of_ascii a =? 225) && (nat_of_ascii b =? 154)
            && (nat_of_ascii c =? 128)) eqn:H3.
  { intros [= <-].
    apply andb_true_iff in H3 as [[->%nat_ascii_eq ->%nat_ascii_eq]%andb_true_iff
                                  ->%nat_ascii_eq].
    eexists (bytes [225; 154; 128]), rest. split; [|done].
    unfold white_space; simpl; in_list. }
  destruct ((nat_of_ascii a =? 226) && (nat_of_ascii b =? 128)
            && (((128 <=? nat_of_ascii c) && (nat_of_ascii c <=? 138))
                || (nat_of_ascii c =? 168) || (nat_of_ascii c =? 169)
                || (nat_of_ascii c =? 175))) eqn:H4.
  { intros [= <-].
    apply andb_true_iff in H4 as [[->%nat_ascii_eq ->%nat_ascii_eq]%andb_true_iff Hc].
    exists (String (ascii_of_nat 226) (String (ascii_of_nat 128) (String c ""))), rest.
    split; [|done].
    rewrite <- (ascii_nat_embedding c). set (n := nat_of_ascii c) in *.
    assert (n = 128 ∨ n = 129 ∨ n = 130 ∨ n = 131 ∨ n = 132 ∨ n = 133 ∨ n = 134
            ∨ n = 135 ∨ n = 136 ∨ n = 137 ∨ n = 138 ∨ n = 168 ∨ n = 169 ∨ n = 175)
      as Hn.
    { repeat (apply orb_true_iff in Hc as [Hc|Hc]).
      - apply andb_true_iff in Hc as [Hlo%Nat.leb_le Hhi%Nat.leb_le]. lia.
      - apply Nat.eqb_eq in Hc. lia.
      - apply Nat.eqb_eq in Hc. lia.
      - apply Nat.eqb_eq in Hc. lia. }
    clearbody n.
    repeat (destruct Hn as [->|Hn]; [unfold white_space; simpl; in_list|]).
    subst n. unfold white_space; simpl; in_list. }
  destruct ((nat_of_ascii a =? 226) && (nat_of_ascii b =? 129)
            && (nat_of_ascii c =? 159)) eqn:H5.
  { intros [= <-].
    apply andb_true_iff in H5 as [[->%nat_ascii_eq ->%nat_ascii_eq]%andb_true_iff
                                  ->%nat_ascii_eq].
    eexists (bytes [226; 129; 159]), rest. split; [|done].
    unfold white_space; simpl; in_list. }
  destruct ((nat_of_ascii a =? 227) && (nat_of_ascii b =? 128)
            && (nat_of_ascii c =? 128)) eqn:H6; [|discriminate].
  intros [= <-].
  apply andb_true_iff in H6 as [[->%nat_ascii_eq ->%nat_ascii_eq]%andb_true_iff
                                ->%nat_ascii_eq].
  eexists (bytes [227; 128; 128]), rest. split; [|done].
  unfold white_space; simpl; in_list.
Qed.

(** [lstrip] passes over a white-space character. *)
Lemma lstrip_token (ws s : string) : ws ∈ white_space → lstrip (ws +:+ s) = lstrip s.
Proof.
  unfold white_space. cbn [fmap list_fmap]. intros H.
  repeat (apply elem_of_cons in H as [->|H]; [reflexivity|]).
  by apply elem_of_nil in H.
Qed.

Lemma append_assoc (a b c : string) : (a +:+ b) +:+ c = a +:+ (b +:+ c).
Proof. induction a as [|x a IH]; [done|]. rewrite !append_cons. by rewrite IH. Qed.

Lemma append_length (a b : string) :
  String.length (a +:+ b) = String.length a + String.length b.
Proof. induction a as [|x a IH]; [done|]. rewrite append_cons. simpl. by rewrite IH. Qed.

Lemma white_space_length (ws : string) : ws ∈ white_space → 0 < String.length ws.
Proof.
  unfold white_space. cbn [fmap list_fmap]. intros H.
  repeat (apply elem_of_cons in H as [->|H]; [simpl; lia|]).
  by apply elem_of_nil in H.
Qed.

Lemma space_width_token_pos (ws s : string) :
  ws ∈ white_space → space_width (ws +:+ s) ≠ 0.
Proof.
  unfold white_space. cbn [fmap list_fmap]. intros H.
  repeat (apply elem_of_cons in H as [->|H]; [discriminate|]).
  by apply elem_of_nil in H.
Qed.

Lemma lstrip_no_space (s : string) : space_width s = 0 → lstrip s = s.
Proof.
  destruct s as [|a rest]; [done|]. unfold lstrip. cbn [lstrip_go].
  by intros ->.
Qed.

Lemma Blank_app (a b : string) : Blank a → Blank b → Blank (a +:+ b).
Proof.
  induction 1 as [|ws s Hws Hs IH]; intros Hb; [done|].
  rewrite append_assoc. constructor; auto.
Qed.

Lemma Blank_token (ws : string) : ws ∈ white_space → Blank ws.
Proof.
  intros H. rewrite <- (append_nil_r ws). constructor; [done | constructor].
Qed.

Lemma Blank_lstrip (s : string) : Blank s → lstrip s = "".
Proof. induction 1 as [|ws s Hws Hs IH]; [done|]. by rewrite lstrip_token. Qed.

(** [lstrip] takes a blank text off the front and stops before a character
    that is not white space. *)
Lemma lstrip_split_below (n : nat) (s : string) :
  String.length s ≤ n →
  ∃ a, Blank a ∧ s = a +:+ lstrip s ∧ space_width (lstrip s) = 0.
Proof.
  revert s. induction n as [|n IH]; intros s Hlen.
  - destruct s; [|simpl in Hlen; lia]. exists "". split; [constructor|]. done.
  - destruct (space_width s) as [|k] eqn:Hw.
    + exists "". rewrite (lstrip_no_space s Hw). split; [constructor|]. done.
    + destruct (space_width_token s k Hw) as (ws & s' & Hws & -> & ->).
      pose proof (white_space_length ws Hws) as Hpos.
      rewrite append_length in Hlen.
      destruct (IH s') as (a & Ha & Hs' & Hstop); [lia|].
      exists (ws +:+ a). split; [by constructor|]. split; [|done].
      rewrite append_assoc. by rewrite <- Hs'.
Qed.

Lemma lstrip_split (s : string) :
  ∃ a, Blank a ∧ s = a +:+ lstrip s ∧ space_width (lstrip s) = 0.
Proof. by apply (lstrip_split_below (String.length s)). Qed.

Lemma lstrip_Blank (s : string) : lstrip s = "" → Blank s.
Proof.
  intros H. destruct (lstrip_split s) as (a & Ha & Hs & _).
  rewrite H, append_nil_r in Hs. by subst.
Qed.

Lemma rstrip_cons (c : ascii) (rest : string) :
  rstrip (String c rest)
  = match lstrip (String c rest) with
    | EmptyString => EmptyString
    | String _ _ => String c (rstrip rest)
    end.
Proof. reflexivity. Qed.

(** [rstrip] takes a blank text off the end. *)
Lemma rstrip_split (t : string) : ∃ b, Blank b ∧ t = rstrip t +:+ b.
Proof.
  induction t as [|c rest (b & Hb & IH)].
  - exists "". split; [constructor | done].
  - rewrite rstrip_cons. destruct (lstrip (String c rest)) eqn:E.
    + exists (String c rest). split; [by apply lstrip_Blank | done].
    + exists b. split; [done|]. rewrite append_cons. by rewrite <- IH.
Qed.

Lemma rstrip_no_trailing (t u ws : string) : ws ∈ white_space → rstrip t ≠ u +:+ ws.
Proof.
  intros Hws. pose proof (white_space_length ws Hws) as Hpos.
  assert (∀ u, "" ≠ u +:+ ws) as Hnil.
  { intros v Hv. apply (f_equal String.length) in Hv.
    rewrite append_length in Hv. simpl in Hv. lia. }
  revert u. induction t as [|c rest IH]; intros u; [apply Hnil|].
  rewrite rstrip_cons. destruct (lstrip (String c rest)) eqn:E; [apply Hnil|].
  destruct u as [|c' u].
  - rewrite append_nil_l. intros Heq.
    destruct (rstrip_split rest) as (b & Hb & Hrest).
    assert (Blank (String c rest)) as Hblank.
    { rewrite Hrest, <- append_cons, Heq. by constructor. }
    apply Blank_lstrip in Hblank. by rewrite Hblank in E.
  - rewrite append_cons. intros [= _ Heq]. by apply (IH u).
Qed.

(** [strip] is the trimming. *)
Lemma strip_trimming (s : string) : trimming_of s (strip s).
Proof.
  unfold strip. destruct (lstrip_split s) as (a & Ha & Hs & Hstop).
  destruct (rstrip_split (lstrip s)) as (b & Hb & Ht).
  split.
  - intros ws u Hws. split; [|by apply rstrip_no_trailing].
    intros Heq. rewrite Heq, append_assoc in Ht. rewrite Ht in Hstop.
    by apply space_width_token_pos in Hstop.
  - exists a, b. split; [done|]. split; [done|]. by rewrite <- Ht.
Qed.

(** The texts that [strip] empties are the blank ones. *)
Lemma strip_blank (s : string) : strip s = "" ↔ Blank s.
Proof.
  split.
  - intros H. destruct (strip_trimming s) as (_ & a & b & Ha & Hb & Hs).
    rewrite H, append_nil_l in Hs. rewrite Hs. by apply Blank_app.
  - intros H. unfold strip. by rewrite (Blank_lstrip s H).
Qed.

(** ** Lower case *)







Lemma snoc_neq {A} (l : list A) (x : A) : l ++ [x] ≠ l.
Proof.
  intros Heq. apply (f_equal length) in Heq.
  rewrite length_app in Heq. simpl in Heq. lia.
Qed.





(** The samples of the market export, as the cache holds them. *)
Example cache_headers_market :
  let r := V041._cache_headers plain_reader "market.csv" Examples.fresh_app
             Examples.disk in
  plain_reader Examples.market_text
  = Row ["Address"; "Sale Price"] :: Examples.market_rows ∧
  V041.headers_samples r.1 !! "Address" = Some ["1 Elm St"; "2 Oak St"; "3 Ash St"] ∧
  V041.headers_samples r.1 !! "Sale Price" = Some ["100"; ""; "300"].
Proof. by_evaluation. Qed.

(** C4 on a file with a surplus cell: the lot export has the header row
    [a,b] and the data row [1,2,3]. The header row is read and assigned to
    [cached_headers] before the rows are sampled; the surplus cell then
    raises [KeyError(None)], which is reported, and the cache is left with
    the headers of the lot export beside the samples of the market export. *)
Theorem cache_headers_error_replaces_headers :
  let before := Examples.app_with_market in
  let r := V041._cache_headers plain_reader "lot.csv" before Examples.disk in
  plain_reader Examples.lot_text = [Row ["a"; "b"]; Row ["1"; "2"; "3"]] ∧
  dialogs r.2 = [showerror "Header Cache Error" "None"] ∧
  V041.cached_headers before = ["Address"; "Sale Price"] ∧
  V041.cached_headers r.1 = ["a"; "b"] ∧
  V041.headers_samples r.1 = V041.headers_samples before ∧
  V041.headers_samples r.1 !! "Address" = Some ["1 Elm St"; "2 Oak St"; "3 Ash St"] ∧
  V041.headers_samples r.1 !! "a" = None.
Proof. by_evaluation. Qed.

(** A file with no row at all: no headers and no samples, and no error. *)
Lemma cache_headers_empty_file (csv_reader : string → list read_item) (path : string)
    (a : V041.App) (w : World) (bytes : string) :
  csv_files w !! path = Some bytes →
  csv_reader (utf_8_sig bytes) = [] →
  V041._cache_headers csv_reader path a w
  = (V041.set_headers_samples ∅ (V041.set_cached_headers [] a), w).
Proof.
  intros Hfile Hrows. unfold V041._cache_headers. by rewrite Hfile, Hrows.
Qed.

(** ** Type-ahead over the cached headers *)






(** The text of the combobox is stripped of the no-break space and the
    blanks around it before it is matched. *)
Example filter_headers_examples :
  let cached := ["GLA (sf)"; "Lot Size"; "Sale Price"; "Sale Date"] in
  V041.filter_headers lower cached "" = cached ∧
  V041.filter_headers lower cached "xyz_no_match" = cached ∧
  V041.filter_headers lower cached "SALE" = ["Sale Price"; "Sale Date"] ∧
  V041.values
    (V041._typeahead_and_preview lower
       (V041.set_cached_headers cached Examples.fresh_app)
       {| V041.text := Examples.nbsp +:+ " lot "; V041.values := cached |} "").1
  = ["Lot Size"].
Proof. by_evaluation. Qed.

(** ** Committing the header mapper *)

Lemma kept_rows (rows : list (string * string)) (acc : list V041.custom_field) :
  foldl (λ new_custom_fields widgets,
           if truthy (strip widgets.1)
           then new_custom_fields
                ++ [{| V041.name := strip widgets.1; V041.header := strip widgets.2 |}]
           else new_custom_fields) acc rows
  = acc ++ (V041.committed <$> List.filter V041.named rows).
Proof.
  revert acc. induction rows as [|r rows IH]; intros acc; simpl.
  - by rewrite List.app_nil_r.
  - rewrite IH. unfold V041.named at 2. destruct (truthy (strip r.1)); [|done].
    by rewrite <- app_assoc.
Qed.

(** [save_all] in one equation: both saves are attempted, one after the
    other, and both attributes are assigned. *)
Lemma save_all_eq (a : V041.App) (w : World) :
  V041.save_all a w
  = let final_map := strip <$> V041._mapper_widgets a in
    let new_custom_fields := V041.committed <$> List.filter V041.named (V041._custom_widgets a) in
    (V041.set_custom_fields new_custom_fields (V041.set_headers_map final_map a),
     show (showinfo "Saved" "Headers and custom fields saved.")
       (V041.save_json V041.CUSTOM_FIELDS_FILE (V041.custom_fields_json new_custom_fields)
          (V041.save_json V041.HEADERS_MAP_FILE (V041.headers_map_json final_map) w))).
Proof.
  unfold V041.save_all. cbn zeta.
  rewrite (copy_items strip (V041._mapper_widgets a)).
  cbn [V041._custom_widgets V041.set_headers_map].
  rewrite (kept_rows (V041._custom_widgets a) []). reflexivity.
Qed.

(** What one [save_json] does to the files and the dialogs: a save that
    fails leaves the file as it was when the file could not be opened, and
    with what the failed write left of it otherwise. *)
Lemma save_json_documents (path : string) (data : json) (w : World) (p : string) :
  documents (V041.save_json path data w) !! p
  = if decide (path = p) then
      match write_errors w !! path, torn_writes w !! path with
      | None, _ => Some (Parsed data)
      | Some _, Some rest => Some rest
      | Some _, None => documents w !! p
      end
    else documents w !! p.
Proof.
  unfold V041.save_json, write_json.
  destruct (write_errors w !! path) as [e|]; [destruct (torn_writes w !! path)|];
    cbn [show documents set_documents]; case_decide; subst;
    by rewrite ?lookup_insert_eq, ?lookup_insert_ne.
Qed.

Lemma save_json_dialogs (path : string) (data : json) (w : World) :
  dialogs (V041.save_json path data w)
  = dialogs w ++
    match write_errors w !! path with
    | None => []
    | Some e => [showwarning "Save Error" ("Could not save to " +:+ path +:+ newline +:+ e)]
    end.
Proof.
  unfold V041.save_json, write_json.
  destruct (write_errors w !! path) as [e|]; [by destruct (torn_writes w !! path)|].
  simpl. by rewrite List.app_nil_r.
Qed.

Lemma save_json_write_errors (path : string) (data : json) (w : World) :
  write_errors (V041.save_json path data w) = write_errors w ∧
  torn_writes (V041.save_json path data w) = torn_writes w.
Proof.
  unfold V041.save_json, write_json.
  destruct (write_errors w !! path); [by destruct (torn_writes w !! path) | done].
Qed.

(** C7. For every list of custom-field rows in the editor, the committed
    custom-field list holds, in the order of the rows, one entry for each row
    whose name is not blank, with the trimmed name and the trimmed header: a
    row is kept if and only if its name holds a character that is not white
    space, whatever its header; a row with a blank name is dropped even with a
    header chosen, and an empty header is kept as the empty binding. *)
Theorem save_all_keeps_named_rows (a : V041.App) (w : World) :
  let rows := V041._custom_widgets a in
  let kept := V041.custom_fields (V041.save_all a w).1 in
  kept = V041.committed <$> List.filter V041.named rows ∧
  (∀ r, V041.named r = true ↔ ¬ Blank r.1) ∧
  (∀ r, trimming_of r.1 (V041.name (V041.committed r)) ∧
        trimming_of r.2 (V041.header (V041.committed r))) ∧
  (∀ c, c ∈ kept ↔ ∃ r, r ∈ rows ∧ ¬ Blank r.1 ∧ c = V041.committed r) ∧
  (∀ n h, Blank n → V041.committed <$> List.filter V041.named [(n, h)] = []) ∧
  (∀ n, ¬ Blank n →
        ∃ n', trimming_of n n' ∧
              V041.committed <$> List.filter V041.named [(n, "")]
              = [{| V041.name := n'; V041.header := "" |}]).
Proof.
  intros rows kept. subst rows kept. rewrite save_all_eq. cbn zeta. simpl.
  assert (∀ r, V041.named r = true ↔ ¬ Blank r.1) as Hnamed.
  { intros r. unfold V041.named. rewrite truthy_true. by rewrite strip_blank. }
  split; [done|]. split; [done|]. split; [|split; [|split]].
  - intros r. split; apply strip_trimming.
  - intros c. rewrite list_elem_of_fmap. split.
    + intros [r [-> Hr]]. apply list_elem_of_In, List.filter_In in Hr as [Hin Hr].
      exists r. split; [by apply list_elem_of_In|]. split; [by apply Hnamed | done].
    + intros [r [Hin [Hname ->]]]. exists r. split; [done|].
      apply list_elem_of_In, List.filter_In. split; [by apply list_elem_of_In|].
      by apply Hnamed.
  - intros n h Hn. apply strip_blank in Hn. unfold V041.named. simpl. by rewrite Hn.
  - intros n Hn. exists (strip n). split; [apply strip_trimming|].
    apply (Hnamed (n, "")) in Hn. simpl. by rewrite Hn.
Qed.

(** The editor with four rows: no name and a header; a name and no header; a
    name of two blanks and a no-break space; a name and a header with white
    space around them. *)
Lemma save_all_keeps_named_rows_witness :
  V041.custom_fields (V041.save_all Examples.editor_app Examples.empty_world).1
  = [{| V041.name := "Pool"; V041.header := "" |};
     {| V041.name := "Deck"; V041.header := "Deck Y/N" |}] ∧
  V041.named ("  " +:+ Examples.nbsp, "Garage") = false ∧
  V041.committed <$> List.filter V041.named [("", "Sale Price")] = [].
Proof.
  destruct (save_all_keeps_named_rows Examples.editor_app Examples.empty_world)
    as (Hkept & Hnamed & _ & _ & Hblank & _).
  split; [|split].
  - rewrite Hkept. reflexivity.
  - apply not_true_is_false. intros Hrow. apply Hnamed in Hrow. apply Hrow.
    change (Blank (" " +:+ (" " +:+ (Examples.nbsp +:+ "")))).
    repeat (constructor; [unfold white_space; simpl; in_list|]). constructor.
  - apply (Hblank "" "Sale Price"). constructor.
Defined.

(** C2, as stated, fails: with the header-mapping file locked and the
    custom-fields file writable, the commit leaves the first file as it was,
    rewrites the second, and replaces both live attributes. *)
Lemma save_all_not_atomic :
  ¬ Spec.commit_is_atomic Examples.mapper_app Examples.locked_disk.
Proof.
  intros Hatomic. destruct Hatomic as (Hdocs & _ & _).
  - left. vm_compute. by eexists.
  - apply (f_equal (lookup V041.CUSTOM_FIELDS_FILE)) in Hdocs.
    vm_compute in Hdocs. discriminate Hdocs.
Qed.

(** C2, amended. A commit of the header-mapping editor saves the two
    documents one after the other, each on its own. A save that fails is
    reported in a warning; its file is as it was when it could not be opened
    for writing, and holds what the failed write left of it when the failure
    came after the file was opened (opening it for writing empties it). The
    other save takes effect all the same, and the live header mapping and
    custom-field list are replaced by the committed values whether or not a
    save failed. *)
Theorem save_all_saves_each_on_its_own (a : V041.App) (w : World) :
  let final_map := strip <$> V041._mapper_widgets a in
  let new_custom_fields :=
    V041.committed <$> List.filter V041.named (V041._custom_widgets a) in
  let warning path e :=
    showwarning "Save Error" ("Could not save to " +:+ path +:+ newline +:+ e) in
  let after_save path data :=
    match write_errors w !! path, torn_writes w !! path with
    | None, _ => Some (Parsed data)
    | Some _, Some rest => Some rest
    | Some _, None => documents w !! path
    end in
  let r := V041.save_all a w in
  V041.headers_map r.1 = final_map ∧
  V041.custom_fields r.1 = new_custom_fields ∧
  documents r.2 !! V041.HEADERS_MAP_FILE
  = after_save V041.HEADERS_MAP_FILE (V041.headers_map_json final_map) ∧
  documents r.2 !! V041.CUSTOM_FIELDS_FILE
  = after_save V041.CUSTOM_FIELDS_FILE (V041.custom_fields_json new_custom_fields) ∧
  (∀ p, p ≠ V041.HEADERS_MAP_FILE → p ≠ V041.CUSTOM_FIELDS_FILE →
        documents r.2 !! p = documents w !! p) ∧
  dialogs r.2
  = dialogs w
    ++ match write_errors w !! V041.HEADERS_MAP_FILE with
       | None => []
       | Some e => [warning V041.HEADERS_MAP_FILE e]
       end
    ++ match write_errors w !! V041.CUSTOM_FIELDS_FILE with
       | None => []
       | Some e => [warning V041.CUSTOM_FIELDS_FILE e]
       end
    ++ [showinfo "Saved" "Headers and custom fields saved."].
Proof.
  intros final_map new_custom_fields warning after_save r. subst r after_save.
  rewrite save_all_eq. cbn zeta. fold final_map new_custom_fields.
  cbn [fst snd V041.headers_map V041.custom_fields V041.set_custom_fields
       V041.set_headers_map show documents dialogs].
  split; [done|]. split; [done|].
  destruct (save_json_write_errors V041.HEADERS_MAP_FILE
              (V041.headers_map_json final_map) w) as [Herrors Htorn].
  split; [|split; [|split]].
  - rewrite !save_json_documents.
    rewrite decide_False by discriminate. by rewrite decide_True.
  - rewrite !save_json_documents, Herrors, Htorn.
    rewrite decide_True by done. rewrite decide_False by discriminate.
    by destruct (write_errors w !! V041.CUSTOM_FIELDS_FILE),
                (torn_writes w !! V041.CUSTOM_FIELDS_FILE).
  - intros p Hmap Hcustom. rewrite !save_json_documents.
    by rewrite !decide_False.
  - rewrite !save_json_dialogs, Herrors. by rewrite <- !app_assoc.
Qed.

(** The header-mapping file cannot be opened: it stays as it was, the
    custom-fields file is rewritten, both attributes are replaced. *)
Example save_all_with_locked_mapping :
  let r := V041.save_all Examples.mapper_app Examples.locked_disk in
  dialogs r.2
  = [showwarning "Save Error"
       ("Could not save to headers_map.json" +:+ newline
        +:+ "[Errno 13] Permission denied: 'headers_map.json'");
     showinfo "Saved" "Headers and custom fields saved."] ∧
  documents r.2 !! V041.HEADERS_MAP_FILE
  = Some (Parsed (V041.headers_map_json (<["GLA (sf)" := "Sq Ft"]> ∅))) ∧
  documents r.2 !! V041.CUSTOM_FIELDS_FILE
  = Some (Parsed (V041.custom_fields_json
                    [{| V041.name := "Pool"; V041.header := "Pool Y/N" |}])) ∧
  V041.headers_map r.1 !! "GLA (sf)" = Some "Living Area" ∧
  V041.custom_fields r.1 = [{| V041.name := "Pool"; V041.header := "Pool Y/N" |}].
Proof. by_evaluation. Qed.

(** The write of the custom-fields file fails after the file was opened: the
    file no longer holds the list of before, and a restart reads the default
    in its place. *)
Example save_all_with_torn_custom_fields :
  let r := V041.save_all Examples.mapper_app Examples.torn_disk in
  dialogs r.2
  = [showwarning "Save Error"
       ("Could not save to custom_fields.json" +:+ newline
        +:+ "[Errno 28] No space left on device");
     showinfo "Saved" "Headers and custom fields saved."] ∧
  documents Examples.torn_disk !! V041.CUSTOM_FIELDS_FILE = Some (Parsed (JArray [])) ∧
  documents r.2 !! V041.CUSTOM_FIELDS_FILE = Some Malformed ∧
  V041.load_json V041.CUSTOM_FIELDS_FILE (JArray [JNull]) r.2 = JArray [JNull] ∧
  V041.custom_fields r.1 = [{| V041.name := "Pool"; V041.header := "Pool Y/N" |}].
Proof. by_evaluation. Qed.

(** ** The persistence store *)

Lemma default_presets_lookup (n : PresetName) : default_presets !! preset_key n = Some ∅.
Proof. by destruct n. Qed.

Lemma default_presets_keys (k : string) (data : gmap string string) :
  default_presets !! k = Some data → data = ∅ ∧ ∃ n, k = preset_key n.
Proof.
  unfold default_presets. intros Hk.
  repeat (apply lookup_insert_Some in Hk as [[<- <-]|[_ Hk]];
          [split; [done|]; first [by exists Q1 | by exists Q2 | by exists Q3
                                 | by exists Q4 | by exists Q5]|]).
  by rewrite lookup_empty in Hk.
Qed.

(** C3, as stated, fails: a presets file that holds a JSON list parses, so
    the list is what [load_json] returns, although it is no presets document
    and the default was supplied. *)
Lemma load_json_returns_unexpected_structure :
  ¬ Spec.load_falls_back Spec.is_presets_document V041.PRESETS_FILE
      (presets_json default_presets) Examples.list_disk.
Proof.
  intros Hfalls. unfold Spec.load_falls_back in Hfalls.
  assert (V041.load_json V041.PRESETS_FILE (presets_json default_presets) Examples.list_disk
          = JArray []) as Hloaded by reflexivity.
  rewrite Hloaded in Hfalls. discriminate Hfalls. reflexivity.
Qed.

(** C3, amended. For every path and caller-supplied default, [load_json]
    returns the document that was saved, and the default whenever the file is
    absent, unreadable or not JSON text; a file that holds JSON text is
    returned as parsed, whatever its structure (no structure is checked). With
    the presets file absent, [load_presets] returns the mapping of Q1 to Q5,
    each to the empty set. *)
Theorem load_json_saved_or_default (path : string) (default data : json) (w : World)
    (presets : gmap string (gmap string string)) :
  (documents w !! path = None ∨ documents w !! path = Some Unreadable
   ∨ documents w !! path = Some Malformed →
   V041.load_json path default w = default) ∧
  (∀ doc, documents w !! path = Some (Parsed doc) → V041.load_json path default w = doc) ∧
  (write_errors w !! path = None →
   V041.load_json path default (V041.save_json path data w) = data) ∧
  Stage2.load_presets w
  = V041.load_json Stage2.CONFIG_FILE (presets_json default_presets) w ∧
  (write_errors w !! Stage2.CONFIG_FILE = None →
   Stage2.load_presets (Stage2.save_presets presets w) = presets_json presets) ∧
  (documents w !! Stage2.CONFIG_FILE = None →
   Stage2.load_presets w = presets_json default_presets) ∧
  (∀ n, default_presets !! preset_key n = Some ∅) ∧
  (∀ k stored, default_presets !! k = Some stored → stored = ∅ ∧ ∃ n, k = preset_key n).
Proof.
  split; [|split; [|split; [|split; [|split; [|split; [|split]]]]]].
  - unfold V041.load_json, read_json. by intros [-> | [-> | ->]].
  - unfold V041.load_json, read_json. by intros doc ->.
  - intros Hok. unfold V041.load_json, V041.save_json, read_json, write_json.
    rewrite Hok. simpl. by rewrite lookup_insert_eq.
  - reflexivity.
  - intros Hok. unfold Stage2.load_presets, Stage2.save_presets, read_json, write_json.
    rewrite Hok. simpl. by rewrite lookup_insert_eq.
  - unfold Stage2.load_presets, read_json. by intros ->.
  - apply default_presets_lookup.
  - apply default_presets_keys.
Qed.

Lemma load_json_saved_or_default_witness :
  V041.load_json V041.HELP_CONTENT_FILE JNull Examples.empty_world = JNull ∧
  V041.load_json V041.PRESETS_FILE JNull Examples.list_disk = JArray [] ∧
  V041.load_json V041.HEADERS_MAP_FILE JNull
    (V041.save_json V041.HEADERS_MAP_FILE (JObject ∅) Examples.empty_world) = JObject ∅ ∧
  Stage2.load_presets Examples.empty_world = presets_json default_presets.
Proof.
  destruct (load_json_saved_or_default V041.HELP_CONTENT_FILE JNull JNull
              Examples.empty_world ∅) as (Habsent & _ & _ & _ & _ & Hpresets & _).
  destruct (load_json_saved_or_default V041.PRESETS_FILE JNull JNull
              Examples.list_disk ∅) as (_ & Hparsed & _).
  destruct (load_json_saved_or_default V041.HEADERS_MAP_FILE JNull (JObject ∅)
              Examples.empty_world ∅) as (_ & _ & Hsaved & _).
  split; [apply Habsent; left; reflexivity|].
  split; [apply Hparsed; reflexivity|].
  split; [apply Hsaved; reflexivity|].
  apply Hpresets. reflexivity.
Defined.

(** ** The preset manager *)

(** C5. For all preset names [n] and [m] (different or not), after preset [n]
    and then preset [m] are applied, every adjustment entry holds the value
    that the stored set of [m] has for its field, and the empty text when the
    set has none: an entry that is populated has its field, with that value,
    in the stored set of [m]. This holds for [_apply_preset] of v0.4.1 and for
    [apply_preset] of Stage 2. *)
Theorem apply_preset_replaces (n m : PresetName) (a : V041.App) (g : Stage2.Globals)
    (entries : gmap string string) (field v : string) :
  let after := V041.adjustment_entries (V041._apply_preset m (V041._apply_preset n a)) in
  let stored := default ∅ (V041.presets a !! preset_key m) in
  let first := Stage2.apply_preset n entries g in
  let after2 := (Stage2.apply_preset m first.2 first.1).2 in
  let stored2 := default ∅ (Stage2.presets g !! preset_key m) in
  (after !! field = Some v → v ≠ "" → stored !! field = Some v) ∧
  after !! field
  = (λ _, default "" (stored !! field)) <$> V041.adjustment_entries a !! field ∧
  (after2 !! field = Some v → v ≠ "" → stored2 !! field = Some v) ∧
  after2 !! field = (λ _, default "" (stored2 !! field)) <$> entries !! field.
Proof.
  cbn zeta. unfold V041._apply_preset, Stage2.apply_preset.
  cbn [V041.adjustment_entries V041.set_adjustment_entries V041.set_active_preset
       V041.presets Stage2.presets fst snd].
  rewrite !fill_entries_fill_entries.
  split; [|split; [|split]].
  - apply fill_entries_populated.
  - apply fill_entries_lookup.
  - apply fill_entries_populated.
  - apply fill_entries_lookup.
Qed.

Lemma apply_preset_replaces_witness :
  let a := V041.set_presets Examples.saved_Q3 Examples.fresh_app in
  default ∅ (V041.presets a !! preset_key Q3) !! "GLA $/sf" = Some "50000" ∧
  V041.adjustment_entries (V041._apply_preset Q1 (V041._apply_preset Q3 a)) !! "GLA $/sf"
  = Some "".
Proof.
  split.
  - destruct (apply_preset_replaces Q1 Q3
                (V041.set_presets Examples.saved_Q3 Examples.fresh_app)
                {| Stage2.presets := ∅; Stage2.current_preset := None |} ∅
                "GLA $/sf" "50000") as (Hpop & _).
    apply Hpop.
    + vm_compute. reflexivity.
    + discriminate.
  - destruct (apply_preset_replaces Q3 Q1
                (V041.set_presets Examples.saved_Q3 Examples.fresh_app)
                {| Stage2.presets := ∅; Stage2.current_preset := None |} ∅
                "GLA $/sf" "") as (_ & Hval & _).
    rewrite Hval. reflexivity.
Defined.

(** C10. Pressing a preset button never touches the world (no file is
    written, no dialog shown), the stored presets, the header mapping, the
    custom fields or the header cache: it makes the preset the active one and
    replaces the text of every adjustment entry by the stored value of its
    field, or by the empty text when the stored set has none. It is a total
    function, and a name with no stored set empties every entry. This holds
    for both versions. *)
Theorem apply_preset_frame (n : PresetName) (a : V041.App) (w : World)
    (s : Stage2.Window) (field : string) :
  let r := V041.press (V041.Preset n) (a, w) in
  let stored := default ∅ (V041.presets a !! preset_key n) in
  let s' := Stage2.press (Stage2.Preset n) s in
  let stored2 := default ∅ (Stage2.presets (Stage2.globals s) !! preset_key n) in
  (r.2 = w ∧
   V041.presets r.1 = V041.presets a ∧
   V041.headers_map r.1 = V041.headers_map a ∧
   V041.custom_fields r.1 = V041.custom_fields a ∧
   V041.cached_headers r.1 = V041.cached_headers a ∧
   V041.headers_samples r.1 = V041.headers_samples a ∧
   V041._mapper_widgets r.1 = V041._mapper_widgets a ∧
   V041._custom_widgets r.1 = V041._custom_widgets a ∧
   V041.active_preset r.1 = Some n ∧
   V041.adjustment_entries r.1 !! field
   = (λ _, default "" (stored !! field)) <$> V041.adjustment_entries a !! field ∧
   (V041.presets a !! preset_key n = None →
    V041.adjustment_entries r.1 !! field = (λ _, "") <$> V041.adjustment_entries a !! field))
  ∧
  (Stage2.world s' = Stage2.world s ∧
   Stage2.presets (Stage2.globals s') = Stage2.presets (Stage2.globals s) ∧
   Stage2.current_preset (Stage2.globals s') = Some n ∧
   Stage2.adj_entries s' !! field
   = (λ _, default "" (stored2 !! field)) <$> Stage2.adj_entries s !! field ∧
   (Stage2.presets (Stage2.globals s) !! preset_key n = None →
    Stage2.adj_entries s' !! field = (λ _, "") <$> Stage2.adj_entries s !! field)).
Proof.
  cbn zeta. unfold V041.press, V041._apply_preset, Stage2.press, Stage2.apply_preset.
  cbn [fst snd V041.presets V041.headers_map V041.custom_fields V041.cached_headers
       V041.headers_samples V041._mapper_widgets V041._custom_widgets
       V041.active_preset V041.adjustment_entries V041.set_adjustment_entries
       V041.set_active_preset Stage2.world Stage2.globals Stage2.adj_entries
       Stage2.presets Stage2.current_preset].
  rewrite !fill_entries_lookup.
  split.
  - repeat (split; [reflexivity|]). intros ->. simpl. by rewrite lookup_empty.
  - repeat (split; [reflexivity|]). intros ->. simpl. by rewrite lookup_empty.
Qed.

Lemma apply_preset_frame_witness :
  let r := V041.press (V041.Preset Q2) (Examples.fresh_app, Examples.disk) in
  r.2 = Examples.disk ∧
  V041.presets r.1 = default_presets ∧
  V041.active_preset r.1 = Some Q2 ∧
  V041.adjustment_entries
    (V041.press (V041.Preset Q2)
       (V041.set_presets ∅ Examples.app_on_Q3, Examples.disk)).1 !! "GLA $/sf"
  = Some "".
Proof.
  destruct (apply_preset_frame Q2 Examples.fresh_app Examples.disk
              Examples.window_on_Q3 "GLA $/sf")
    as ((Hworld & Hpresets & _ & _ & _ & _ & _ & _ & Hactive & _) & _).
  destruct (apply_preset_frame Q2 (V041.set_presets ∅ Examples.app_on_Q3) Examples.disk
              Examples.window_on_Q3 "GLA $/sf")
    as ((_ & _ & _ & _ & _ & _ & _ & _ & _ & _ & Hunsaved) & _).
  split; [exact Hworld|]. split; [exact Hpresets|]. split; [exact Hactive|].
  rewrite Hunsaved; reflexivity.
Defined.

(** C1 on v0.4.1: with Q3 active and the entries holding a price, an empty
    text and two blanks, [_save_preset] stores all three fields with their
    text as typed and persists that set; [save_preset] of Stage 2 stores, for
    the same entries, the one field that is not blank. *)
Theorem save_preset_stores_blank_fields :
  let r := V041._save_preset Examples.app_on_Q3 Examples.empty_world in
  let r2 :=
    Stage2.save_preset (Some Q3) Examples.typed_entries
      {| Stage2.presets := default_presets; Stage2.current_preset := Some Q3 |}
      Examples.empty_world in
  V041.active_preset Examples.app_on_Q3 = Some Q3 ∧
  V041.presets r.1 !! "Q3"
  = Some (<["GLA $/sf" := "50000"]>
            (<["Basement $/sf" := ""]> (<["Garage $/bay" := "  "]> ∅))) ∧
  documents r.2 !! V041.PRESETS_FILE = Some (Parsed (presets_json (V041.presets r.1))) ∧
  Stage2.presets r2.1 !! "Q3" = Some (<["GLA $/sf" := "50000"]> ∅).
Proof. by_evaluation. Qed.

(** C9 on Stage 2: with Q3 active, Clear Adjustments leaves [current_preset]
    at Q3, and the Save Preset that follows overwrites the stored Q3 with the
    empty set, writes the file and reports success. *)
Theorem clear_adjustments_keeps_preset_active :
  let cleared := Stage2.press Stage2.ClearAdjustments Examples.window_on_Q3 in
  let saved := Stage2.press Stage2.SavePreset cleared in
  Stage2.current_preset (Stage2.globals Examples.window_on_Q3) = Some Q3 ∧
  Stage2.presets (Stage2.globals Examples.window_on_Q3) !! "Q3"
  = Some (<["GLA $/sf" := "50000"]> ∅) ∧
  Stage2.current_preset (Stage2.globals cleared) = Some Q3 ∧
  Stage2.presets (Stage2.globals saved) !! "Q3" = Some ∅ ∧
  documents (Stage2.world saved) !! Stage2.CONFIG_FILE
  = Some (Parsed (presets_json (<["Q3" := ∅]> default_presets))) ∧
  dialogs (Stage2.world saved)
  = [showinfo "Preset Saved" "Preset Q3 updated and saved."].
Proof. by_evaluation. Qed.

(** ** Further properties of the two versions *)



(** [_save_preset] of v0.4.1 stores the text of every adjustment entry as it
    stands, and does nothing but show a notice when no preset is active. *)
Theorem v041_save_preset_stores_entries (a : V041.App) (w : World) (q : PresetName) :
  (V041.active_preset a = Some q →
   V041.presets (V041._save_preset a w).1
   = <[preset_key q := V041.adjustment_entries a]> (V041.presets a)) ∧
  (V041.active_preset a = None →
   V041._save_preset a w = (a, show (showinfo "Save Preset" "Select a Q button first.") w)).
Proof.
  unfold V041._save_preset. split; intros ->; [|done].
  cbn [fst V041.presets V041.set_presets].
  rewrite (copy_items (λ entry, entry)). by rewrite map_fmap_id.
Qed.

Lemma v041_save_preset_stores_entries_witness :
  V041.presets (V041._save_preset Examples.app_on_Q3 Examples.empty_world).1
  = <[preset_key Q3 := Examples.typed_entries]> default_presets ∧
  V041._save_preset Examples.fresh_app Examples.empty_world
  = (Examples.fresh_app,
     show (showinfo "Save Preset" "Select a Q button first.") Examples.empty_world).
Proof.
  split.
  - apply (v041_save_preset_stores_entries Examples.app_on_Q3 Examples.empty_world Q3).
    reflexivity.
  - apply (v041_save_preset_stores_entries Examples.fresh_app Examples.empty_world Q1).
    reflexivity.
Defined.

(** In v0.4.1, Clear Adjustments empties every adjustment entry and leaves no
    preset active, so that the Save Preset that follows writes nothing: the
    presets and the files stay as they were and the notice to select a Q
    button is shown. *)
Theorem v041_clear_then_save_writes_nothing (a : V041.App) (w : World) (field : string) :
  let cleared := V041.press V041.ClearAdjustments (a, w) in
  let saved := V041.press V041.SavePreset cleared in
  V041.active_preset cleared.1 = None ∧
  V041.adjustment_entries cleared.1 !! field
  = (λ _, "") <$> V041.adjustment_entries a !! field ∧
  cleared.2 = w ∧
  saved.1 = cleared.1 ∧
  V041.presets saved.1 = V041.presets a ∧
  documents saved.2 = documents w ∧
  dialogs saved.2 = dialogs w ++ [showinfo "Save Preset" "Select a Q button first."].
Proof.
  cbn zeta. unfold V041.press, V041._clear_adjustments, V041._save_preset.
  destruct a as [p hm cf [q|] ae ch hs mw cw]; simpl;
    rewrite lookup_fmap; repeat split; done.
Qed.

(** When the header cache reports an error, the cached samples are the ones
    from before; when the file cannot be opened, or the read of its header
    row raises, whatever would follow it, the cached headers are too. *)
Theorem cache_headers_error_keeps_samples (csv_reader : string → list read_item)
    (path : string) (a : V041.App) (w : World) :
  let r := V041._cache_headers csv_reader path a w in
  (r.2 = w ∨
   ∃ e, r.2 = show (showerror "Header Cache Error" e) w ∧
        V041.headers_samples r.1 = V041.headers_samples a) ∧
  (csv_files w !! path = None → r.1 = a ∧ r.2 ≠ w) ∧
  (∀ bytes e rest, csv_files w !! path = Some bytes →
     csv_reader (utf_8_sig bytes) = Raises e :: rest →
     r.1 = a ∧ r.2 = show (showerror "Header Cache Error" e) w ∧ r.2 ≠ w).
Proof.
  cbn zeta. unfold V041._cache_headers.
  assert (∀ e, show (showerror "Header Cache Error" e) w ≠ w) as Hshown.
  { intros e Heq. apply (f_equal dialogs) in Heq. simpl in Heq. by apply snoc_neq in Heq. }
  split; [|split].
  - destruct (csv_files w !! path) as [bytes|]; [|right; by eexists].
    destruct (fieldnames _) as [e|[names rest]]; [right; by eexists|].
    destruct (sample_rows _ _ _ _) as [e|samples]; [right; by eexists | by left].
  - intros ->. split; [done | apply Hshown].
  - intros bytes e rest -> ->. split; [done|]. split; [done | apply Hshown].
Qed.

(** A path with no file, and a file that starts with a byte that is no
    UTF-8: both leave the cache of the market export as it was. *)
Lemma cache_headers_error_keeps_samples_witness :
  (let r := V041._cache_headers plain_reader "nowhere.csv" Examples.app_with_market
              Examples.disk in
   r.1 = Examples.app_with_market ∧ r.2 ≠ Examples.disk) ∧
  (let r := V041._cache_headers Examples.decoding_reader "latin.csv"
              Examples.app_with_market Examples.latin_disk in
   r.1 = Examples.app_with_market ∧
   r.2 = show (showerror "Header Cache Error" Examples.decode_error) Examples.latin_disk ∧
   r.2 ≠ Examples.latin_disk).
Proof.
  split.
  - apply (cache_headers_error_keeps_samples plain_reader "nowhere.csv"
             Examples.app_with_market Examples.disk).
    reflexivity.
  - destruct (cache_headers_error_keeps_samples Examples.decoding_reader "latin.csv"
                Examples.app_with_market Examples.latin_disk) as (_ & _ & Hraises).
    apply (Hraises Examples.latin_text Examples.decode_error
             [Row ["Ort"; "Preis"]; Row ["K"; "1"]]); reflexivity.
Defined.

(** The scenario of the specification on Stage 2: no presets file; Q3 is
    applied, a price per square foot typed, the preset saved; the file then
    holds that one field under Q3, and applying Q3 anew shows it again. *)
Example stage2_scenario :
  let start :=
    {| Stage2.globals := {| Stage2.presets := default_presets;
                            Stage2.current_preset := None |};
       Stage2.adj_entries := <["GLA $/sf" := ""]> (<["Basement $/sf" := ""]> ∅);
       Stage2.world := Examples.empty_world |} in
  let on_Q3 := Stage2.press (Stage2.Preset Q3) start in
  let typed :=
    {| Stage2.globals := Stage2.globals on_Q3;
       Stage2.adj_entries := <["GLA $/sf" := "50000"]> (Stage2.adj_entries on_Q3);
       Stage2.world := Stage2.world on_Q3 |} in
  let saved := Stage2.press Stage2.SavePreset typed in
  let again := Stage2.press (Stage2.Preset Q3) (Stage2.press (Stage2.Preset Q1) saved) in
  Stage2.load_presets (Stage2.world start) = presets_json default_presets ∧
  Stage2.load_presets (Stage2.world saved)
  = presets_json (<["Q3" := <["GLA $/sf" := "50000"]> ∅]> default_presets) ∧
  Stage2.adj_entries again = <["GLA $/sf" := "50000"]> (<["Basement $/sf" := ""]> ∅).
Proof. by_evaluation. Qed.
